(** * Unit of work: the transactional boundary of [internal/app/unitofwork]

    A shallow embedding of [uow.go] and a verification of the behaviour of
    [UnitOfWork.Atomic]: which collaborators it calls, in which order, and
    which error or panic leaves it.

    Layout:
    - [GoErrors]: error values (those of [errors.New], [fmt.Errorf] with
      [%w] and [errors.Join], which are pointers, and errors of other
      types, comparable or not, with or without [Is] and [Unwrap] methods)
      and [errors.Is];
    - outcomes of calls (return or panic), the interfaces of the package as
      type classes, the trace of calls;
    - section [Model]: the state and trace monad, [defer] and [recover],
      [stateRollbackError] and [Atomic];
    - section [Readings]: what is read off a run;
    - [Demo]: a scripted storage backend, atomic context and message bus;
    - sections [ErrorFacts], [Paths], [Properties]: the lemmas and the
      theorems about [Atomic];
    - section [Examples]: the theorems on the scripted environment;
    - sections [Wrapping], [Guarantees], [Faults]: what [stateRollbackError]
      matches, what holds on every run of [Atomic], and what a panicking
      collaborator leads to; section [MoreExamples] runs them. *)

From Stdlib Require Import List String Ascii Bool PArith Arith Lia.
Import ListNotations.
Local Open Scope string_scope.

Set Warnings "-register-all".

(* ================================================================== *)
(** ** Go error values *)

Module GoErrors.

(** A non-nil Go [error].  A nil [error] is [None] in [option error].
    - [errorString]: what [errors.New] returns, a pointer to a string;
    - [wrapError]: what [fmt.Errorf] returns for a format with one [%w], a
      pointer to the message and the wrapped error;
    - [joinError]: what [errors.Join] returns, a pointer to the errors it
      joins;
    - [otherError]: an error of a type these packages do not know.
      [comparable] tells whether its dynamic type is comparable (a slice or
      map type, or a struct with such a field, is not); [id] tells its
      values apart under [==]; [isTargets] lists the targets for which its
      [Is] method answers true (empty when the type has no [Is] method);
      [unwrap] is what its [Unwrap] method yields (empty when it has none,
      one error for [Unwrap() error], several for [Unwrap() []error]).
    The first three are pointers: [ptr] is the address, and two pointers
    are equal when they hold the same address, whatever they point to. *)
Inductive error : Type :=
| errorString (ptr : positive) (s : string)
| wrapError (ptr : positive) (msg : string) (err : error)
| joinError (ptr : positive) (errs : list error)
| otherError (comparable : bool) (id : positive) (msg : string)
    (isTargets : list error) (unwrap : list error).

(** Whether the dynamic type of an error is comparable. *)
Definition comparable (e : error) : bool :=
  match e with
  | errorString _ _ => true
  | wrapError _ _ _ => true
  | joinError _ _ => true
  | otherError c _ _ _ _ => c
  end.

(** [a == b] on two errors: the same dynamic type and equal values; for
    pointers, the same address.  Where Go would panic, on two values of one
    type that is not comparable, the answer is [false]; [errors.Is] never
    asks. *)
Definition error_eqb (a b : error) : bool :=
  match a, b with
  | errorString p _, errorString q _ => Pos.eqb p q
  | wrapError p _ _, wrapError q _ _ => Pos.eqb p q
  | joinError p _, joinError q _ => Pos.eqb p q
  | otherError c i _ _ _, otherError d j _ _ _ => c && d && Pos.eqb i j
  | _, _ => false
  end.

(** The [Error()] method. *)
Fixpoint Error (e : error) : string :=
  match e with
  | errorString _ s => s
  | wrapError _ msg _ => msg
  | joinError _ errs =>
      (fix lines (l : list error) : string :=
         match l with
         | [] => ""
         | [x] => Error x
         | x :: l' => Error x ++ String (ascii_of_nat 10) (lines l')
         end) errs
  | otherError _ _ msg _ _ => msg
  end.

(** [errors.New(text)], allocated at [ptr]. *)
Definition errors_New (ptr : positive) (text : string) : error :=
  errorString ptr text.

(** [fmt.Errorf(prefix + "%w", err)] for a non-nil [err], allocated at
    [ptr]. *)
Definition fmt_Errorf_w (ptr : positive) (prefix : string) (err : error)
  : error :=
  wrapError ptr (prefix ++ Error err) err.

(** [errors.Join(errs...)], allocated at [ptr]: nil arguments are dropped,
    and the result is nil when nothing is left. *)
Fixpoint non_nil (errs : list (option error)) : list error :=
  match errs with
  | [] => []
  | Some e :: rest => e :: non_nil rest
  | None :: rest => non_nil rest
  end.

Definition errors_Join (ptr : positive) (errs : list (option error))
  : option error :=
  match non_nil errs with
  | [] => None
  | es => Some (joinError ptr es)
  end.

(** [err.Is(target)], for an [err] whose type has an [Is] method. *)
Definition Is_method (err target : error) : bool :=
  match err with
  | otherError _ _ _ isTargets _ =>
      existsb (fun t => error_eqb t target) isTargets
  | _ => false
  end.

(** The loop of [errors.Is] on a non-nil chain: at each node, [==] when the
    target is comparable, then the node's [Is] method, then what [Unwrap]
    gives, depth first. *)
Fixpoint is_ (err target : error) (targetComparable : bool) {struct err}
  : bool :=
  (targetComparable && error_eqb err target) ||
  Is_method err target ||
  match err with
  | errorString _ _ => false
  | wrapError _ _ inner => is_ inner target targetComparable
  | joinError _ errs =>
      existsb (fun e => is_ e target targetComparable) errs
  | otherError _ _ _ _ unwrap =>
      existsb (fun e => is_ e target targetComparable) unwrap
  end.

(** [errors.Is(err, target)]. *)
Definition errors_Is (err target : option error) : bool :=
  match err, target with
  | Some e, Some t => is_ e t (comparable t)
  | None, None => true
  | _, _ => false
  end.

(** The errors that repeated [Unwrap] reaches from [e], [e] first, depth
    first. *)
Fixpoint chain (e : error) : list error :=
  e :: match e with
       | errorString _ _ => []
       | wrapError _ _ inner => chain inner
       | joinError _ errs => flat_map chain errs
       | otherError _ _ _ _ unwrap => flat_map chain unwrap
       end.

End GoErrors.
Import GoErrors.

(* ================================================================== *)
(** ** Calls, outcomes and the trace monad *)

(** A [context.Context]: the ambient one the caller passes, or the child
    that [context.WithCancel] derives from a parent.  The ambient context is
    never nil. *)
Inductive context_Context : Type :=
| ambient (id : nat)
| cancelCtx (parent : context_Context).

(** How a call into foreign code ends: it returns, or it panics with a
    value.  The panic value is what [recover()] hands out, which is never
    nil while a panic is under way (Go 1.21 and later turn [panic(nil)]
    into a [*runtime.PanicNilError]). *)
Inductive outcome (PanicVal A : Type) : Type :=
| Returns (a : A)
| Panics (p : PanicVal).
Arguments Returns {PanicVal A} a.
Arguments Panics {PanicVal A} p.

(** The behaviour of a piece of foreign code: from the state of the world
    outside [Atomic] (database, buffers of the contexts, the bus) to an
    outcome and the state it leaves behind. *)
Definition Eff (S PanicVal A : Type) : Type := S -> outcome PanicVal A * S.

(** Modelled from the spec: the interface [storage.DB] of package
    [internal/adapter/storage], of which [uow.go] uses
    [Begin(ctx) (storage.DBContext, error)]. *)
Class DB (S PanicVal D Tx : Type) : Type :=
  { Begin : D -> context_Context -> Eff S PanicVal (Tx * option error) }.

(** Modelled from the spec: the interface [storage.DBContext], of which
    [uow.go] uses [Rollback() error]. *)
Class DBContext (S PanicVal Tx : Type) : Type :=
  { Rollback : Tx -> Eff S PanicVal (option error) }.

(** [type AtomicContext interface]. *)
Class AtomicContext (S PanicVal Event T : Type) : Type :=
  { Commit : T -> Eff S PanicVal (option error);
    Close : T -> Eff S PanicVal (option error);
    CollectEvents : T -> Eff S PanicVal (list Event) }.

(** [type MessageBus interface]. *)
Class MessageBus (S PanicVal Event B : Type) : Type :=
  { PublishEvents : B -> list Event -> Eff S PanicVal (option error) }.

(** A [*slog.Logger]; it is never nil, and what it is asked to log is
    recorded in the trace. *)
Inductive slog_Logger : Type :=
| slogLogger.

(** What [Atomic] and the helpers of this file call, in the order of the
    calls.  A call is recorded when it is made, whatever its outcome. *)
Inductive Call (Event Tx T : Type) : Type :=
| CallBegin (ctx : context_Context)
| CallNewContext (tx : Tx)
| CallWithCancel (parent : context_Context)
| CallDo (txCtx : context_Context) (atomicCtx : T)
| CallRollback (tx : Tx)
| CallCommit (atomicCtx : T)
| CallClose (atomicCtx : T)
| CallCollectEvents (atomicCtx : T)
| CallPublishEvents (events : list Event)
| CallCancel (txCtx : context_Context)
| CallLogError (msg : string) (err : error).
Arguments CallBegin {Event Tx T} ctx.
Arguments CallNewContext {Event Tx T} tx.
Arguments CallWithCancel {Event Tx T} parent.
Arguments CallDo {Event Tx T} txCtx atomicCtx.
Arguments CallRollback {Event Tx T} tx.
Arguments CallCommit {Event Tx T} atomicCtx.
Arguments CallClose {Event Tx T} atomicCtx.
Arguments CallCollectEvents {Event Tx T} atomicCtx.
Arguments CallPublishEvents {Event Tx T} events.
Arguments CallCancel {Event Tx T} txCtx.
Arguments CallLogError {Event Tx T} msg err.

(** The state [Atomic] runs in: the world outside and the calls so far. *)
Record World (S Event Tx T : Type) : Type :=
  { store : S;
    trace : list (Call Event Tx T) }.
Arguments store {S Event Tx T} w.
Arguments trace {S Event Tx T} w.

(** [type UnitOfWork[T AtomicContext] struct]. *)
Record UnitOfWork (S PanicVal D Tx T B : Type) : Type :=
  { db : D;
    newContext : Tx -> Eff S PanicVal (T * option error);
    msgBus : B;
    logger : slog_Logger }.
Arguments db {S PanicVal D Tx T B} u.
Arguments newContext {S PanicVal D Tx T B} u.
Arguments msgBus {S PanicVal D Tx T B} u.
Arguments logger {S PanicVal D Tx T B} u.

(** [var ErrRollback = errors.New("rollback")], allocated once when the
    package is initialised. *)
Definition ErrRollback_ptr : positive := 1%positive.
Definition ErrRollback : error := errors_New ErrRollback_ptr "rollback".

(** The allocator of the Go runtime, which the calls of [fmt.Errorf] and
    [errors.Join] in [stateRollbackError] use: [new_object] hands out the
    address of a new object.  It is part of the world outside [Atomic], and
    nothing is assumed about the addresses it gives. *)
Class Heap (S : Type) : Type :=
  { new_object : S -> positive * S }.

(** The value [stateRollbackError(err)] builds when [fmt.Errorf] allocates
    its result at [pw] and [errors.Join] at [pj]. *)
Definition stateRollbackError_at (pw pj : positive) (err : error)
  : option error :=
  errors_Join pj
    [Some (fmt_Errorf_w pw "state rollback: " err); Some ErrRollback].

(* ================================================================== *)
(** ** The embedding of [uow.go] *)

Section Model.

Variables S PanicVal Event D Tx T B : Type.
Context {Heap_S : Heap S}.
Context {DB_D : DB S PanicVal D Tx}.
Context {DBContext_Tx : DBContext S PanicVal Tx}.
Context {AtomicContext_T : AtomicContext S PanicVal Event T}.
Context {MessageBus_B : MessageBus S PanicVal Event B}.

(** A computation of [Atomic]: it threads the world and ends in a return
    or in a panic. *)
Definition M (A : Type) : Type :=
  World S Event Tx T -> outcome PanicVal A * World S Event Tx T.

Definition ret {A : Type} (a : A) : M A :=
  fun w => (Returns a, w).

(** [panic(p)]. *)
Definition panic {A : Type} (p : PanicVal) : M A :=
  fun w => (Panics p, w).

(** Sequencing: a panic of the first part skips the rest. *)
Definition bind {A C : Type} (m : M A) (k : A -> M C) : M C :=
  fun w =>
    match m w with
    | (Returns a, w') => k a w'
    | (Panics p, w') => (Panics p, w')
    end.

(** Append one call to the trace. *)
Definition record (c : Call Event Tx T) : M unit :=
  fun w => (Returns tt, {| store := store w; trace := trace w ++ [c] |}).

(** Call foreign code: the call is recorded, then the code runs on the
    store. *)
Definition invoke {A : Type} (c : Call Event Tx T) (f : Eff S PanicVal A)
  : M A :=
  fun w =>
    let (o, s') := f (store w) in
    (o, {| store := s'; trace := trace w ++ [c] |}).

(** [defer f()] for an [f] that does not call [recover]: [f] runs when the
    body is left, by a return or by a panic; the outcome of the body stands
    unless [f] itself panics. *)
Definition defer {A : Type} (f : M unit) (body : M A) : M A :=
  fun w =>
    let (o, w') := body w in
    match f w' with
    | (Returns _, w'') => (o, w'')
    | (Panics q, w'') => (Panics q, w'')
    end.

(** [defer func() { if r := recover(); r != nil { handler(r) } }()]: when
    the body returns, [recover()] is nil and the result stands; when the
    body panics with [r], the panic is stopped and [handler r] runs.  Should
    the handler return, the function returns [named], the value its named
    result holds at that time. *)
Definition defer_recover {A : Type} (handler : PanicVal -> M unit)
    (named : A) (body : M A) : M A :=
  fun w =>
    match body w with
    | (Returns a, w') => (Returns a, w')
    | (Panics r, w') =>
        match handler r w' with
        | (Returns _, w'') => (Returns named, w'')
        | (Panics q, w'') => (Panics q, w'')
        end
    end.

Notation "x <- m ;; k" := (bind m (fun x => k))
  (at level 61, m at next level, right associativity).
Notation "m ;;; k" := (bind m (fun _ => k))
  (at level 61, right associativity).

(** The methods of the interfaces, as [Atomic] calls them. *)
Definition db_Begin (d : D) (ctx : context_Context)
  : M (Tx * option error) :=
  invoke (CallBegin ctx) (Begin d ctx).

Definition tx_Rollback (tx : Tx) : M (option error) :=
  invoke (CallRollback tx) (Rollback tx).

Definition atomicCtx_Commit (atomicCtx : T) : M (option error) :=
  invoke (CallCommit atomicCtx) (Commit atomicCtx).

Definition atomicCtx_Close (atomicCtx : T) : M (option error) :=
  invoke (CallClose atomicCtx) (Close atomicCtx).

Definition atomicCtx_CollectEvents (atomicCtx : T) : M (list Event) :=
  invoke (CallCollectEvents atomicCtx) (CollectEvents atomicCtx).

Definition msgBus_PublishEvents (b : B) (events : list Event)
  : M (option error) :=
  invoke (CallPublishEvents events) (PublishEvents b events).

(** [logger.Error(msg, "error", err)]. *)
Definition logger_Error (l : slog_Logger) (msg : string) (err : error)
  : M unit :=
  record (CallLogError msg err).

(** [context.WithCancel(ctx)]: the child context and its cancel function. *)
Definition context_WithCancel (ctx : context_Context)
  : M (context_Context * M unit) :=
  record (CallWithCancel ctx) ;;;
  ret (cancelCtx ctx, record (CallCancel (cancelCtx ctx))).

(** [func New[T AtomicContext](db, newCtx, msgBus, logger) *UnitOfWork[T]]. *)
Definition New (db : D) (newCtx : Tx -> Eff S PanicVal (T * option error))
    (msgBus : B) (logger : slog_Logger) : UnitOfWork S PanicVal D Tx T B :=
  {| db := db; newContext := newCtx; msgBus := msgBus; logger := logger |}.

(** Allocate an object: its address. *)
Definition alloc : M positive :=
  fun w =>
    let (p, s') := new_object (store w) in
    (Returns p, {| store := s'; trace := trace w |}).

(** [func stateRollbackError(err error) error]: [fmt.Errorf] allocates the
    wrapper, then [errors.Join] allocates the join. *)
Definition stateRollbackError (err : error) : M (option error) :=
  pw <- alloc ;;
  pj <- alloc ;;
  ret (errors_Join pj
         [Some (fmt_Errorf_w pw "state rollback: " err); Some ErrRollback]).

(** The function deferred at lines 61-68 of [uow.go], after [recover()] has
    given a non-nil [r]. *)
Definition rollback_and_repanic (uow : UnitOfWork S PanicVal D Tx T B)
    (tx : Tx) (r : PanicVal) : M unit :=
  err <- tx_Rollback tx ;;
  match err with
  | Some err => logger_Error (logger uow) "failed to rollback transaction" err
  | None => ret tt
  end ;;;
  panic r.

(** [func (uow *UnitOfWork[T]) Atomic(ctx, do) (err error)].

    The named result [err] is assigned by both [:=] of lines 51 and 56, so it
    is nil from the moment the two [if err != nil] have been passed; the
    [err] of the later [if] statements are variables of their own. *)
Definition Atomic (uow : UnitOfWork S PanicVal D Tx T B)
    (ctx : context_Context)
    (do : context_Context -> T -> Eff S PanicVal (option error))
  : M (option error) :=
  r <- db_Begin (db uow) ctx ;;
  let '(tx, err) := r in
  match err with
  | Some err => stateRollbackError err
  | None =>
      r <- invoke (CallNewContext tx) (newContext uow tx) ;;
      let '(atomicCtx, err) := r in
      match err with
      | Some err => stateRollbackError err
      | None =>
          defer_recover (rollback_and_repanic uow tx) None
            (r <- context_WithCancel ctx ;;
             let '(txCtx, cancel) := r in
             defer cancel
               (err <- invoke (CallDo txCtx atomicCtx) (do txCtx atomicCtx) ;;
                match err with
                | Some err =>
                    err' <- tx_Rollback tx ;;
                    match err' with
                    | Some err' =>
                        logger_Error (logger uow)
                          "failed to rollback transaction" err'
                    | None => ret tt
                    end ;;;
                    stateRollbackError err
                | None =>
                    events <- atomicCtx_CollectEvents atomicCtx ;;
                    err <- msgBus_PublishEvents (msgBus uow) events ;;
                    match err with
                    | Some err =>
                        logger_Error (logger uow)
                          "failed to publish events" err ;;;
                        ret (Some err)
                    | None => ret None
                    end
                end))
      end
  end.

(** One call of [Atomic] from a store, with an empty trace. *)
Definition run_Atomic (uow : UnitOfWork S PanicVal D Tx T B)
    (ctx : context_Context)
    (do : context_Context -> T -> Eff S PanicVal (option error)) (s : S)
  : outcome PanicVal (option error) * World S Event Tx T :=
  Atomic uow ctx do {| store := s; trace := [] |}.

(** Reading a trace. *)
Definition is_Rollback (c : Call Event Tx T) : bool :=
  match c with CallRollback _ => true | _ => false end.

Definition is_PublishEvents (c : Call Event Tx T) : bool :=
  match c with CallPublishEvents _ => true | _ => false end.

Definition is_Commit (c : Call Event Tx T) : bool :=
  match c with CallCommit _ => true | _ => false end.

Definition is_Close (c : Call Event Tx T) : bool :=
  match c with CallClose _ => true | _ => false end.

Definition is_NewContext (c : Call Event Tx T) : bool :=
  match c with CallNewContext _ => true | _ => false end.

Definition is_Do (c : Call Event Tx T) : bool :=
  match c with CallDo _ _ => true | _ => false end.

(** How many calls of a kind a trace holds. *)
Definition calls (kind : Call Event Tx T -> bool)
    (tr : list (Call Event Tx T)) : nat :=
  List.length (filter kind tr).

(** The batches handed to [PublishEvents], in the order of the calls. *)
Fixpoint published (tr : list (Call Event Tx T)) : list (list Event) :=
  match tr with
  | [] => []
  | CallPublishEvents events :: rest => events :: published rest
  | _ :: rest => published rest
  end.

End Model.

Arguments M S PanicVal Event Tx T A : clear implicits.
Arguments Atomic {S PanicVal Event D Tx T B Heap_S DB_D DBContext_Tx
  AtomicContext_T MessageBus_B} uow ctx do.
Arguments run_Atomic {S PanicVal Event D Tx T B Heap_S DB_D DBContext_Tx
  AtomicContext_T MessageBus_B} uow ctx do s.
Arguments New {S PanicVal D Tx T B} db newCtx msgBus logger.
Arguments is_Rollback {Event Tx T} c.
Arguments is_PublishEvents {Event Tx T} c.
Arguments is_Commit {Event Tx T} c.
Arguments is_Close {Event Tx T} c.
Arguments is_NewContext {Event Tx T} c.
Arguments is_Do {Event Tx T} c.
Arguments calls {Event Tx T} kind tr.
Arguments published {Event Tx T} tr.

(* ================================================================== *)
(** ** Reading a run *)

Section Readings.

Variables S PanicVal Event D Tx T B : Type.
Context {Heap_S : Heap S}.
Context {DB_D : DB S PanicVal D Tx}.
Context {DBContext_Tx : DBContext S PanicVal Tx}.
Context {AtomicContext_T : AtomicContext S PanicVal Event T}.
Context {MessageBus_B : MessageBus S PanicVal Event B}.

(** The log record that follows a call of [Rollback]. *)
Definition rollback_log (rerr : option error) : list (Call Event Tx T) :=
  match rerr with
  | Some err => [CallLogError "failed to rollback transaction" err]
  | None => []
  end.

(** The log record that follows a call of [PublishEvents]. *)
Definition publish_log (perr : option error) : list (Call Event Tx T) :=
  match perr with
  | Some err => [CallLogError "failed to publish events" err]
  | None => []
  end.

(** The body returned a non-nil error or panicked. *)
Definition fails_or_panics (o : outcome PanicVal (option error)) : Prop :=
  match o with
  | Returns None => False
  | Returns (Some _) => True
  | Panics _ => True
  end.

(** On a run of [Atomic] whose [Begin] and context factory succeed, there
    is exactly one [Rollback] if and only if the body fails or panics, and
    exactly one [PublishEvents] if and only if the body returns nil. *)
Definition rollback_iff_failure_publish_iff_success
    (uow : UnitOfWork S PanicVal D Tx T B) (ctx : context_Context)
    (do : context_Context -> T -> Eff S PanicVal (option error)) (s0 : S)
  : Prop :=
  forall (tx : Tx) (s1 : S) (atomicCtx : T) (s2 : S)
         (o : outcome PanicVal (option error)) (s3 : S),
    Begin (db uow) ctx s0 = (Returns (tx, None), s1) ->
    newContext uow tx s1 = (Returns (atomicCtx, None), s2) ->
    do (cancelCtx ctx) atomicCtx s2 = (o, s3) ->
    (calls is_Rollback (trace (snd (run_Atomic uow ctx do s0))) = 1
     <-> fails_or_panics o) /\
    (calls is_PublishEvents (trace (snd (run_Atomic uow ctx do s0))) = 1
     <-> o = Returns None).

(** On a run of [Atomic] whose body returns nil and whose [PublishEvents]
    fails with [G], no [Rollback] is made and the error returned unwraps to
    [G] and does not unwrap to [ErrRollback]. *)
Definition publish_error_lacks_marker
    (uow : UnitOfWork S PanicVal D Tx T B) (ctx : context_Context)
    (do : context_Context -> T -> Eff S PanicVal (option error)) (s0 : S)
  : Prop :=
  forall (tx : Tx) (s1 : S) (atomicCtx : T) (s2 s3 : S)
         (events : list Event) (s4 : S) (G : error) (s5 : S),
    Begin (db uow) ctx s0 = (Returns (tx, None), s1) ->
    newContext uow tx s1 = (Returns (atomicCtx, None), s2) ->
    do (cancelCtx ctx) atomicCtx s2 = (Returns None, s3) ->
    CollectEvents atomicCtx s3 = (Returns events, s4) ->
    PublishEvents (msgBus uow) events s4 = (Returns (Some G), s5) ->
    calls is_Rollback (trace (snd (run_Atomic uow ctx do s0))) = 0 /\
    exists err : error,
      fst (run_Atomic uow ctx do s0) = Returns (Some err) /\
      errors_Is (Some err) (Some G) = true /\
      errors_Is (Some err) (Some ErrRollback) = false.

(** On a run of [Atomic] whose body returns the error [E] and whose
    [Rollback] returns, there is one [Rollback], no [PublishEvents], and the
    error returned unwraps to [ErrRollback] and to [E]. *)
Definition body_error_unwraps_to_cause
    (uow : UnitOfWork S PanicVal D Tx T B) (ctx : context_Context)
    (do : context_Context -> T -> Eff S PanicVal (option error)) (s0 : S)
  : Prop :=
  forall (tx : Tx) (s1 : S) (atomicCtx : T) (s2 : S) (E : error) (s3 : S)
         (rerr : option error) (s4 : S),
    Begin (db uow) ctx s0 = (Returns (tx, None), s1) ->
    newContext uow tx s1 = (Returns (atomicCtx, None), s2) ->
    do (cancelCtx ctx) atomicCtx s2 = (Returns (Some E), s3) ->
    Rollback tx s3 = (Returns rerr, s4) ->
    calls is_Rollback (trace (snd (run_Atomic uow ctx do s0))) = 1 /\
    calls is_PublishEvents (trace (snd (run_Atomic uow ctx do s0))) = 0 /\
    exists err : error,
      fst (run_Atomic uow ctx do s0) = Returns (Some err) /\
      errors_Is (Some err) (Some ErrRollback) = true /\
      errors_Is (Some err) (Some E) = true.

(** On a run of [Atomic] whose [Begin] fails with [F], [Begin] is the only
    call and the error returned unwraps to [F] and to [ErrRollback]. *)
Definition begin_error_unwraps_to_cause
    (uow : UnitOfWork S PanicVal D Tx T B) (ctx : context_Context)
    (do : context_Context -> T -> Eff S PanicVal (option error)) (s0 : S)
  : Prop :=
  forall (tx : Tx) (F : error) (s1 : S),
    Begin (db uow) ctx s0 = (Returns (tx, Some F), s1) ->
    trace (snd (run_Atomic uow ctx do s0)) = [CallBegin ctx] /\
    exists err : error,
      fst (run_Atomic uow ctx do s0) = Returns (Some err) /\
      errors_Is (Some err) (Some F) = true /\
      errors_Is (Some err) (Some ErrRollback) = true.

(** On a run of [Atomic] whose context factory fails with [E] after [Begin]
    has succeeded, there is no [Rollback] and the error returned unwraps to
    [E] and to [ErrRollback]. *)
Definition factory_error_unwraps_to_cause
    (uow : UnitOfWork S PanicVal D Tx T B) (ctx : context_Context)
    (do : context_Context -> T -> Eff S PanicVal (option error)) (s0 : S)
  : Prop :=
  forall (tx : Tx) (s1 : S) (atomicCtx : T) (E : error) (s2 : S),
    Begin (db uow) ctx s0 = (Returns (tx, None), s1) ->
    newContext uow tx s1 = (Returns (atomicCtx, Some E), s2) ->
    calls is_Rollback (trace (snd (run_Atomic uow ctx do s0))) = 0 /\
    exists err : error,
      fst (run_Atomic uow ctx do s0) = Returns (Some err) /\
      errors_Is (Some err) (Some E) = true /\
      errors_Is (Some err) (Some ErrRollback) = true.

(** On a run of [Atomic] whose body panics with [P], there is one
    [Rollback], no [PublishEvents], and [P] leaves [Atomic]. *)
Definition body_panic_is_reraised
    (uow : UnitOfWork S PanicVal D Tx T B) (ctx : context_Context)
    (do : context_Context -> T -> Eff S PanicVal (option error)) (s0 : S)
  : Prop :=
  forall (tx : Tx) (s1 : S) (atomicCtx : T) (s2 : S) (P : PanicVal)
         (s3 : S),
    Begin (db uow) ctx s0 = (Returns (tx, None), s1) ->
    newContext uow tx s1 = (Returns (atomicCtx, None), s2) ->
    do (cancelCtx ctx) atomicCtx s2 = (Panics P, s3) ->
    calls is_Rollback (trace (snd (run_Atomic uow ctx do s0))) = 1 /\
    calls is_PublishEvents (trace (snd (run_Atomic uow ctx do s0))) = 0 /\
    fst (run_Atomic uow ctx do s0) = Panics P.

(** More kinds of calls. *)
Definition is_Begin (c : Call Event Tx T) : bool :=
  match c with CallBegin _ => true | _ => false end.

Definition is_WithCancel (c : Call Event Tx T) : bool :=
  match c with CallWithCancel _ => true | _ => false end.

Definition is_Cancel (c : Call Event Tx T) : bool :=
  match c with CallCancel _ => true | _ => false end.

Definition is_CollectEvents (c : Call Event Tx T) : bool :=
  match c with CallCollectEvents _ => true | _ => false end.

Definition is_LogError (c : Call Event Tx T) : bool :=
  match c with CallLogError _ _ => true | _ => false end.

(** The call [c] is addressed to the objects of this attempt: the ambient
    context [ctx] and its child, the handle [tx], the atomic context
    [atomicCtx].  Calls that carry none of them are not constrained. *)
Definition addressed_to (ctx : context_Context) (tx : Tx) (atomicCtx : T)
    (c : Call Event Tx T) : Prop :=
  match c with
  | CallBegin c' => c' = ctx
  | CallNewContext t => t = tx
  | CallWithCancel parent => parent = ctx
  | CallDo c' a => c' = cancelCtx ctx /\ a = atomicCtx
  | CallRollback t => t = tx
  | CallCommit a => a = atomicCtx
  | CallClose a => a = atomicCtx
  | CallCollectEvents a => a = atomicCtx
  | CallPublishEvents _ => True
  | CallCancel c' => c' = cancelCtx ctx
  | CallLogError _ _ => True
  end.

(** The panic that leaves the deferred guard: the one it recovered, unless
    its own [Rollback] panics. *)
Definition guard_panic (recovered : PanicVal)
    (ro : outcome PanicVal (option error)) : PanicVal :=
  match ro with
  | Returns _ => recovered
  | Panics q => q
  end.

(** The log record of a [Rollback] with outcome [ro]. *)
Definition outcome_log (ro : outcome PanicVal (option error))
  : list (Call Event Tx T) :=
  match ro with
  | Returns rerr => rollback_log rerr
  | Panics _ => []
  end.

End Readings.

Arguments rollback_log {Event Tx T} rerr.
Arguments publish_log {Event Tx T} perr.
Arguments fails_or_panics {PanicVal} o.
Arguments is_Begin {Event Tx T} c.
Arguments is_WithCancel {Event Tx T} c.
Arguments is_Cancel {Event Tx T} c.
Arguments is_CollectEvents {Event Tx T} c.
Arguments is_LogError {Event Tx T} c.
Arguments addressed_to {Event Tx T} ctx tx atomicCtx c.
Arguments guard_panic {PanicVal} recovered ro.
Arguments outcome_log {PanicVal Event Tx T} ro.
Arguments rollback_iff_failure_publish_iff_success {S PanicVal Event D Tx T B
  Heap_S DB_D DBContext_Tx AtomicContext_T MessageBus_B} uow ctx do s0.
Arguments publish_error_lacks_marker {S PanicVal Event D Tx T B
  Heap_S DB_D DBContext_Tx AtomicContext_T MessageBus_B} uow ctx do s0.
Arguments body_error_unwraps_to_cause {S PanicVal Event D Tx T B
  Heap_S DB_D DBContext_Tx AtomicContext_T MessageBus_B} uow ctx do s0.
Arguments begin_error_unwraps_to_cause {S PanicVal Event D Tx T B
  Heap_S DB_D DBContext_Tx AtomicContext_T MessageBus_B} uow ctx do s0.
Arguments factory_error_unwraps_to_cause {S PanicVal Event D Tx T B
  Heap_S DB_D DBContext_Tx AtomicContext_T MessageBus_B} uow ctx do s0.
Arguments body_panic_is_reraised {S PanicVal Event D Tx T B
  Heap_S DB_D DBContext_Tx AtomicContext_T MessageBus_B} uow ctx do s0.

(* ================================================================== *)
(** ** A scripted environment

    Test doubles for the collaborators of [Atomic]: every handle carries the
    answer it will give, so that each path of [Atomic] can be run on a
    concrete input. *)

Module Demo.

Definition Event : Type := string.
Definition PanicVal : Type := string.

(** The world outside: the events buffered by the atomic context, the
    batches the bus has delivered, how often the transaction has been
    rolled back, and the next free address of the heap. *)
Record Store : Type :=
  { buffer : list Event;
    delivered : list (list Event);
    rollbacks : nat;
    next : positive }.

Definition empty : Store :=
  {| buffer := []; delivered := []; rollbacks := 0; next := 100 |}.

(** The allocator hands out the next free address. *)
#[export] Instance demo_Heap : Heap Store :=
  {| new_object := fun s =>
       (next s, {| buffer := buffer s; delivered := delivered s;
                   rollbacks := rollbacks s; next := Pos.succ (next s) |}) |}.

(** A transaction handle answers [Rollback] with the outcome it holds. *)
Definition Tx : Type := outcome PanicVal (option error).

(** A backend answers [Begin] with the outcome it holds. *)
Definition D : Type := outcome PanicVal (Tx * option error).

(** An atomic context: sound, or one whose [CollectEvents] panics. *)
Inductive T : Type :=
| sound
| broken (p : PanicVal).

(** A bus answers [PublishEvents] with the outcome it holds, and delivers
    the batch when that outcome is success. *)
Definition B : Type := outcome PanicVal (option error).

#[export] Instance demo_DB : DB Store PanicVal D Tx :=
  {| Begin := fun d _ s => (d, s) |}.

#[export] Instance demo_DBContext : DBContext Store PanicVal Tx :=
  {| Rollback := fun tx s =>
       (tx, {| buffer := buffer s; delivered := delivered s;
               rollbacks := Datatypes.S (rollbacks s); next := next s |}) |}.

#[export] Instance demo_AtomicContext : AtomicContext Store PanicVal Event T :=
  {| Commit := fun _ s => (Returns None, s);
     Close := fun _ s => (Returns None, s);
     CollectEvents := fun t s =>
       match t with
       | sound =>
           (Returns (buffer s),
            {| buffer := []; delivered := delivered s;
               rollbacks := rollbacks s; next := next s |})
       | broken p => (Panics p, s)
       end |}.

#[export] Instance demo_MessageBus : MessageBus Store PanicVal Event B :=
  {| PublishEvents := fun b events s =>
       match b with
       | Returns None =>
           (b, {| buffer := buffer s;
                  delivered := delivered s ++ [events];
                  rollbacks := rollbacks s; next := next s |})
       | _ => (b, s)
       end |}.

(** A unit of work over a backend, a scripted context factory and a bus. *)
Definition uow (d : D) (factory : outcome PanicVal (T * option error))
    (b : B) : UnitOfWork Store PanicVal D Tx T B :=
  New d (fun _ s => (factory, s)) b slogLogger.

(** A body that emits [events] into the atomic context and then ends with
    [o]. *)
Definition body (events : list Event) (o : outcome PanicVal (option error))
  : context_Context -> T -> Eff Store PanicVal (option error) :=
  fun _ _ s =>
    (o, {| buffer := buffer s ++ events; delivered := delivered s;
           rollbacks := rollbacks s; next := next s |}).

(** Some errors of the collaborators. *)
Definition errE : error := errors_New 11 "insufficient funds".
Definition errF : error := errors_New 12 "connection refused".
Definition errG : error := errors_New 13 "bus unreachable".
Definition errR : error := errors_New 14 "rollback failed".

(** An error whose type is a slice of field errors: not comparable, with
    no [Is] and no [Unwrap] method. *)
Definition errV : error := otherError false 21 "2 fields invalid" [] [].

(** The error an earlier, rolled back unit of work returned. *)
Definition errInner : option error := stateRollbackError_at 51 52 errE.

(** A backend whose transactions roll back as [r] says. *)
Definition backend (r : outcome PanicVal (option error)) : D :=
  Returns (r, None).

(** The ambient context of the examples. *)
Definition ctx : context_Context := ambient 0.

(** One run, from the empty store. *)
Definition run (d : D) (factory : outcome PanicVal (T * option error))
    (b : B) (events : list Event) (o : outcome PanicVal (option error))
  : outcome PanicVal (option error) * World Store Event Tx T :=
  run_Atomic (uow d factory b) ctx (body events o) empty.

End Demo.

(* ================================================================== *)
(** ** Facts about [errors.Is] *)

Section ErrorFacts.

Lemma error_eqb_refl (e : error) :
  comparable e = true -> error_eqb e e = true.
Proof.
  destruct e; cbn; intros H; rewrite ?H, ?Pos.eqb_refl; reflexivity.
Qed.

Lemma is_here (err target : error) :
  error_eqb err target = true -> is_ err target true = true.
Proof. intros H; destruct err; cbn [is_ andb]; now rewrite H. Qed.

Lemma is_wrap (p : positive) (msg : string) (e t : error) (c : bool) :
  is_ e t c = true -> is_ (wrapError p msg e) t c = true.
Proof. intros H; cbn [is_]. rewrite H. apply orb_true_r. Qed.

Lemma is_join (p : positive) (es : list error) (e t : error) (c : bool) :
  In e es -> is_ e t c = true -> is_ (joinError p es) t c = true.
Proof.
  intros Hin H; cbn [is_].
  apply orb_true_iff; right.
  apply existsb_exists; now exists e.
Qed.

Lemma chain_head (e : error) : In e (chain e).
Proof. destruct e; left; reflexivity. Qed.

(** What [stateRollbackError] builds. *)
Lemma stateRollbackError_at_eq (pw pj : positive) (err : error) :
  stateRollbackError_at pw pj err =
  Some (joinError pj [wrapError pw ("state rollback: " ++ Error err) err;
                      ErrRollback]).
Proof. reflexivity. Qed.

(** Whatever [errors.Is] finds in the cause, it finds in the result of
    [stateRollbackError]. *)
Lemma stateRollbackError_at_Is_mono (pw pj : positive) (err target : error) :
  errors_Is (Some err) (Some target) = true ->
  errors_Is (stateRollbackError_at pw pj err) (Some target) = true.
Proof.
  rewrite stateRollbackError_at_eq; cbn [errors_Is]. intros H.
  eapply is_join; [left; reflexivity |].
  now apply is_wrap.
Qed.

(** The result of [stateRollbackError] unwraps to a cause of a comparable
    type. *)
Lemma stateRollbackError_at_Is_cause (pw pj : positive) (err : error) :
  comparable err = true ->
  errors_Is (stateRollbackError_at pw pj err) (Some err) = true.
Proof.
  intros Hc. apply stateRollbackError_at_Is_mono.
  cbn [errors_Is]. rewrite Hc. now apply is_here, error_eqb_refl.
Qed.

(** The result of [stateRollbackError] unwraps to [ErrRollback]. *)
Lemma stateRollbackError_at_Is_ErrRollback (pw pj : positive) (err : error) :
  errors_Is (stateRollbackError_at pw pj err) (Some ErrRollback) = true.
Proof.
  rewrite stateRollbackError_at_eq; cbn [errors_Is].
  eapply is_join; [right; left; reflexivity |].
  reflexivity.
Qed.

(** The cause is in the [Unwrap] tree of the result. *)
Lemma stateRollbackError_at_chain (pw pj : positive) (err e : error) :
  stateRollbackError_at pw pj err = Some e -> In err (chain e).
Proof.
  rewrite stateRollbackError_at_eq. intros H; injection H as <-.
  cbn [chain flat_map]. right. apply in_or_app. left.
  right. apply chain_head.
Qed.

End ErrorFacts.

(* ================================================================== *)
(** ** The paths of [Atomic] *)

Ltac unfold_Atomic :=
  unfold run_Atomic, Atomic, rollback_and_repanic, defer_recover, defer,
    context_WithCancel, db_Begin, tx_Rollback, atomicCtx_CollectEvents,
    msgBus_PublishEvents, logger_Error, stateRollbackError, alloc,
    bind, invoke, record, ret, panic;
  cbn [store trace].

(** Use the equation [H] that tells the outcome of a call. *)
Ltac answer H := rewrite H; cbn [store trace app].

Section Paths.

Variables S PanicVal Event D Tx T B : Type.
Context {Heap_S : Heap S}.
Context {DB_D : DB S PanicVal D Tx}.
Context {DBContext_Tx : DBContext S PanicVal Tx}.
Context {AtomicContext_T : AtomicContext S PanicVal Event T}.
Context {MessageBus_B : MessageBus S PanicVal Event B}.

Variable uow : UnitOfWork S PanicVal D Tx T B.
Variable ctx : context_Context.
Variable do : context_Context -> T -> Eff S PanicVal (option error).
Variable s0 : S.

Lemma run_begin_fails (tx : Tx) (F : error) (s1 : S)
    (pw : positive) (s1a : S) (pj : positive) (s1b : S) :
  Begin (db uow) ctx s0 = (Returns (tx, Some F), s1) ->
  new_object s1 = (pw, s1a) ->
  new_object s1a = (pj, s1b) ->
  run_Atomic uow ctx do s0 =
  (Returns (stateRollbackError_at pw pj F),
   {| store := s1b; trace := [CallBegin ctx] |}).
Proof.
  intros HB HW HJ. unfold_Atomic. answer HB. answer HW. now answer HJ.
Qed.

Lemma run_factory_fails (tx : Tx) (s1 : S) (atomicCtx : T) (E : error)
    (s2 : S) (pw : positive) (s2a : S) (pj : positive) (s2b : S) :
  Begin (db uow) ctx s0 = (Returns (tx, None), s1) ->
  newContext uow tx s1 = (Returns (atomicCtx, Some E), s2) ->
  new_object s2 = (pw, s2a) ->
  new_object s2a = (pj, s2b) ->
  run_Atomic uow ctx do s0 =
  (Returns (stateRollbackError_at pw pj E),
   {| store := s2b; trace := [CallBegin ctx; CallNewContext tx] |}).
Proof.
  intros HB HN HW HJ. unfold_Atomic.
  answer HB. answer HN. answer HW. now answer HJ.
Qed.

Lemma run_factory_panics (tx : Tx) (s1 : S) (P : PanicVal) (s2 : S) :
  Begin (db uow) ctx s0 = (Returns (tx, None), s1) ->
  newContext uow tx s1 = (Panics P, s2) ->
  run_Atomic uow ctx do s0 =
  (Panics P, {| store := s2; trace := [CallBegin ctx; CallNewContext tx] |}).
Proof. intros HB HN. unfold_Atomic. answer HB. now answer HN. Qed.

Lemma run_body_fails (tx : Tx) (s1 : S) (atomicCtx : T) (s2 : S)
    (E : error) (s3 : S) (rerr : option error) (s4 : S)
    (pw : positive) (s4a : S) (pj : positive) (s4b : S) :
  Begin (db uow) ctx s0 = (Returns (tx, None), s1) ->
  newContext uow tx s1 = (Returns (atomicCtx, None), s2) ->
  do (cancelCtx ctx) atomicCtx s2 = (Returns (Some E), s3) ->
  Rollback tx s3 = (Returns rerr, s4) ->
  new_object s4 = (pw, s4a) ->
  new_object s4a = (pj, s4b) ->
  run_Atomic uow ctx do s0 =
  (Returns (stateRollbackError_at pw pj E),
   {| store := s4b;
      trace := [CallBegin ctx; CallNewContext tx; CallWithCancel ctx;
                CallDo (cancelCtx ctx) atomicCtx; CallRollback tx]
               ++ rollback_log rerr ++ [CallCancel (cancelCtx ctx)] |}).
Proof.
  intros HB HN HD HR HW HJ. unfold_Atomic.
  answer HB. answer HN. answer HD. answer HR.
  destruct rerr; cbn [store trace app]; answer HW; now answer HJ.
Qed.

Lemma run_body_panics (tx : Tx) (s1 : S) (atomicCtx : T) (s2 : S)
    (P : PanicVal) (s3 : S) (rerr : option error) (s4 : S) :
  Begin (db uow) ctx s0 = (Returns (tx, None), s1) ->
  newContext uow tx s1 = (Returns (atomicCtx, None), s2) ->
  do (cancelCtx ctx) atomicCtx s2 = (Panics P, s3) ->
  Rollback tx s3 = (Returns rerr, s4) ->
  run_Atomic uow ctx do s0 =
  (Panics P,
   {| store := s4;
      trace := [CallBegin ctx; CallNewContext tx; CallWithCancel ctx;
                CallDo (cancelCtx ctx) atomicCtx; CallCancel (cancelCtx ctx);
                CallRollback tx]
               ++ rollback_log rerr |}).
Proof.
  intros HB HN HD HR. unfold_Atomic.
  answer HB. answer HN. answer HD. answer HR.
  now destruct rerr.
Qed.

Lemma run_body_succeeds (tx : Tx) (s1 : S) (atomicCtx : T) (s2 s3 : S)
    (events : list Event) (s4 : S) (perr : option error) (s5 : S) :
  Begin (db uow) ctx s0 = (Returns (tx, None), s1) ->
  newContext uow tx s1 = (Returns (atomicCtx, None), s2) ->
  do (cancelCtx ctx) atomicCtx s2 = (Returns None, s3) ->
  CollectEvents atomicCtx s3 = (Returns events, s4) ->
  PublishEvents (msgBus uow) events s4 = (Returns perr, s5) ->
  run_Atomic uow ctx do s0 =
  (Returns perr,
   {| store := s5;
      trace := [CallBegin ctx; CallNewContext tx; CallWithCancel ctx;
                CallDo (cancelCtx ctx) atomicCtx;
                CallCollectEvents atomicCtx; CallPublishEvents events]
               ++ publish_log perr ++ [CallCancel (cancelCtx ctx)] |}).
Proof.
  intros HB HN HD HC HP. unfold_Atomic.
  answer HB. answer HN. answer HD. answer HC. answer HP.
  now destruct perr.
Qed.

End Paths.

(* ================================================================== *)
(** ** The behaviour of [Atomic] *)

(** Split on the outcome of the next foreign call. *)
Ltac split_on c :=
  let o := fresh "o" in
  let s := fresh "s" in
  let E := fresh "E" in
  destruct c as [o s] eqn:E; destruct o; cbn [store trace app].

Ltac split_pair :=
  match goal with
  | |- context [let (_, _) := ?a in _] =>
      is_var a; let e := fresh "e" in destruct a as [? [e|]]
  end.

Ltac split_option :=
  match goal with
  | |- context [match ?a with Some _ => _ | None => _ end] =>
      is_var a; destruct a
  end.

Section Properties.

Variables S PanicVal Event D Tx T B : Type.
Context {Heap_S : Heap S}.
Context {DB_D : DB S PanicVal D Tx}.
Context {DBContext_Tx : DBContext S PanicVal Tx}.
Context {AtomicContext_T : AtomicContext S PanicVal Event T}.
Context {MessageBus_B : MessageBus S PanicVal Event B}.

Variable uow : UnitOfWork S PanicVal D Tx T B.
Variable ctx : context_Context.
Variable do : context_Context -> T -> Eff S PanicVal (option error).
Variable s0 : S.

Ltac next_call :=
  match goal with
  | |- context [new_object ?s] =>
      destruct (new_object s) as [? ?] eqn:?; cbn [store trace app]
  | |- context [Begin ?d ?c ?s] => split_on (Begin d c s)
  | |- context [newContext ?u ?t ?s] => split_on (newContext u t s)
  | |- context [do ?c ?t ?s] => split_on (do c t s)
  | |- context [Rollback ?t ?s] => split_on (Rollback t s)
  | |- context [CollectEvents ?t ?s] => split_on (CollectEvents t s)
  | |- context [PublishEvents ?b ?e ?s] => split_on (PublishEvents b e s)
  | _ => split_pair
  | _ => split_option
  end.

(** C1.  When [Begin] and the context factory succeed, the body returns nil
    leaving the events [events] in the atomic context (they are what
    [CollectEvents] then returns, in their order), and [PublishEvents]
    succeeds, then [Atomic] returns nil and [PublishEvents] has been called
    exactly once, with exactly [events] as one batch. *)
Theorem Atomic_success_publishes_batch_once
    (tx : Tx) (s1 : S) (atomicCtx : T) (s2 s3 : S)
    (events : list Event) (s4 s5 : S) :
  Begin (db uow) ctx s0 = (Returns (tx, None), s1) ->
  newContext uow tx s1 = (Returns (atomicCtx, None), s2) ->
  do (cancelCtx ctx) atomicCtx s2 = (Returns None, s3) ->
  CollectEvents atomicCtx s3 = (Returns events, s4) ->
  PublishEvents (msgBus uow) events s4 = (Returns None, s5) ->
  fst (run_Atomic uow ctx do s0) = Returns None /\
  calls is_PublishEvents (trace (snd (run_Atomic uow ctx do s0))) = 1 /\
  published (trace (snd (run_Atomic uow ctx do s0))) = [events].
Proof.
  intros HB HN HD HC HP.
  rewrite (run_body_succeeds _ _ _ _ _ _ _ uow ctx do s0
             tx s1 atomicCtx s2 s3 events s4 None s5 HB HN HD HC HP).
  repeat split.
Qed.



(** C4, as the code has it.  When the body panics with [P] (after [Begin]
    and the context factory have succeeded), [Atomic] calls [Rollback]
    exactly once, never calls [PublishEvents], and ends in a panic, never
    in a return.  The panic that leaves is [P] itself when that [Rollback]
    returns, with or without an error; when that [Rollback] panics, it is
    the panic of the [Rollback]. *)
Theorem Atomic_body_panic_rolls_back_and_repanics
    (tx : Tx) (s1 : S) (atomicCtx : T) (s2 : S) (P : PanicVal) (s3 : S) :
  Begin (db uow) ctx s0 = (Returns (tx, None), s1) ->
  newContext uow tx s1 = (Returns (atomicCtx, None), s2) ->
  do (cancelCtx ctx) atomicCtx s2 = (Panics P, s3) ->
  calls is_Rollback (trace (snd (run_Atomic uow ctx do s0))) = 1 /\
  calls is_PublishEvents (trace (snd (run_Atomic uow ctx do s0))) = 0 /\
  fst (run_Atomic uow ctx do s0)
  = Panics (guard_panic P (fst (Rollback tx s3))) /\
  (forall (rerr : option error) (s4 : S),
     Rollback tx s3 = (Returns rerr, s4) ->
     fst (run_Atomic uow ctx do s0) = Panics P).
Proof.
  intros HB HN HD. unfold_Atomic.
  answer HB. answer HN. answer HD.
  destruct (Rollback tx s3) as [[[R|]|Q] s4]; cbn;
    repeat split; intros; try reflexivity; discriminate.
Qed.


(** C6, as the code has it.  On a run whose [Begin] and context factory
    succeed, and on which the calls made after the body return rather than
    panic (the [Rollback] when the body fails or panics; [CollectEvents]
    and then [PublishEvents] when the body returns nil), there is exactly
    one [Rollback] if and only if the body returns a non-nil error or
    panics, and exactly one [PublishEvents] if and only if the body returns
    nil. *)
Theorem Atomic_rollback_iff_failure_publish_iff_success
    (tx : Tx) (s1 : S) (atomicCtx : T) (s2 : S)
    (o : outcome PanicVal (option error)) (s3 : S) :
  Begin (db uow) ctx s0 = (Returns (tx, None), s1) ->
  newContext uow tx s1 = (Returns (atomicCtx, None), s2) ->
  do (cancelCtx ctx) atomicCtx s2 = (o, s3) ->
  (fails_or_panics o ->
   exists (rerr : option error) (s4 : S),
     Rollback tx s3 = (Returns rerr, s4)) ->
  (o = Returns None ->
   exists (events : list Event) (s4 : S) (perr : option error) (s5 : S),
     CollectEvents atomicCtx s3 = (Returns events, s4) /\
     PublishEvents (msgBus uow) events s4 = (Returns perr, s5)) ->
  (calls is_Rollback (trace (snd (run_Atomic uow ctx do s0))) = 1
   <-> fails_or_panics o) /\
  (calls is_PublishEvents (trace (snd (run_Atomic uow ctx do s0))) = 1
   <-> o = Returns None).
Proof.
  intros HB HN HD HR HP.
  destruct o as [[E|] | P].
  - destruct (HR I) as (rerr & s4 & HR3).
    destruct (new_object s4) as [pw s4a] eqn:HW.
    destruct (new_object s4a) as [pj s4b] eqn:HJ.
    rewrite (run_body_fails _ _ _ _ _ _ _ uow ctx do s0
               tx s1 atomicCtx s2 E s3 rerr s4 pw s4a pj s4b
               HB HN HD HR3 HW HJ).
    cbn [fst snd trace fails_or_panics].
    destruct rerr; cbn; split; split; intros; try tauto; discriminate.
  - destruct (HP eq_refl) as (events & s4 & perr & s5 & HC3 & HP4).
    rewrite (run_body_succeeds _ _ _ _ _ _ _ uow ctx do s0
               tx s1 atomicCtx s2 s3 events s4 perr s5 HB HN HD HC3 HP4).
    cbn [fst snd trace fails_or_panics].
    destruct perr; cbn; split; split; intros; try tauto; discriminate.
  - destruct (HR I) as (rerr & s4 & HR3).
    rewrite (run_body_panics _ _ _ _ _ _ _ uow ctx do s0
               tx s1 atomicCtx s2 P s3 rerr s4 HB HN HD HR3).
    cbn [fst snd trace fails_or_panics].
    destruct rerr; cbn; split; split; intros; try tauto; discriminate.
Qed.


(** C8.  On every run of [Atomic], whatever the collaborators and the body
    do, the trace holds no call of [Commit] and no call of [Close] of the
    atomic context; this covers the path on which the body returns nil. *)
Theorem Atomic_never_commits_nor_closes :
  calls is_Commit (trace (snd (run_Atomic uow ctx do s0))) = 0 /\
  calls is_Close (trace (snd (run_Atomic uow ctx do s0))) = 0.
Proof.
  unfold_Atomic.
  repeat next_call; cbn; split; reflexivity.
Qed.

(** C9.  When the context factory panics with [P] after [Begin] has
    succeeded, [Atomic] ends in the panic [P] and has called nothing after
    the factory: [Rollback] is not called, the guard that a panicking body
    meets is not installed yet. *)
Theorem Atomic_factory_panic_skips_rollback
    (tx : Tx) (s1 : S) (P : PanicVal) (s2 : S) :
  Begin (db uow) ctx s0 = (Returns (tx, None), s1) ->
  newContext uow tx s1 = (Panics P, s2) ->
  fst (run_Atomic uow ctx do s0) = Panics P /\
  calls is_Rollback (trace (snd (run_Atomic uow ctx do s0))) = 0 /\
  trace (snd (run_Atomic uow ctx do s0)) = [CallBegin ctx; CallNewContext tx].
Proof.
  intros HB HN.
  rewrite (run_factory_panics _ _ _ _ _ _ _ uow ctx do s0 tx s1 P s2 HB HN).
  repeat split.
Qed.

(** C10.  When the body returns nil and [CollectEvents] returns [events],
    [PublishEvents] is called exactly once, with [events], whatever it
    answers; with [events] empty that is one call with zero events. *)
Theorem Atomic_publishes_once_even_if_empty
    (tx : Tx) (s1 : S) (atomicCtx : T) (s2 s3 : S)
    (events : list Event) (s4 : S) :
  Begin (db uow) ctx s0 = (Returns (tx, None), s1) ->
  newContext uow tx s1 = (Returns (atomicCtx, None), s2) ->
  do (cancelCtx ctx) atomicCtx s2 = (Returns None, s3) ->
  CollectEvents atomicCtx s3 = (Returns events, s4) ->
  calls is_PublishEvents (trace (snd (run_Atomic uow ctx do s0))) = 1 /\
  published (trace (snd (run_Atomic uow ctx do s0))) = [events] /\
  (events = [] ->
   In (CallPublishEvents []) (trace (snd (run_Atomic uow ctx do s0)))).
Proof.
  intros HB HN HD HC. unfold_Atomic.
  answer HB. answer HN. answer HD. answer HC.
  repeat next_call; cbn; repeat split; intros ->; tauto.
Qed.

End Properties.

(* ================================================================== *)
(** ** The theorems on the scripted environment *)

Section Examples.

Import Demo.

(** The happy path: the body emits [e1; e2] and returns nil, the bus
    accepts. *)
Lemma Atomic_success_publishes_batch_once_witness :
  fst (run (backend (Returns None)) (Returns (sound, None)) (Returns None)
         ["e1"; "e2"] (Returns None)) = Returns None /\
  calls is_PublishEvents
    (trace (snd (run (backend (Returns None)) (Returns (sound, None))
                   (Returns None) ["e1"; "e2"] (Returns None)))) = 1 /\
  published
    (trace (snd (run (backend (Returns None)) (Returns (sound, None))
                   (Returns None) ["e1"; "e2"] (Returns None))))
  = [["e1"; "e2"]].
Proof.
  unfold run.
  eapply (Atomic_success_publishes_batch_once Store PanicVal Event D Tx T B);
    reflexivity.
Defined.





(** The body emits [e1] and panics; the rollback of the guard fails. *)
Lemma Atomic_body_panic_rolls_back_and_repanics_witness :
  calls is_Rollback
    (trace (snd (run (backend (Returns (Some errR))) (Returns (sound, None))
                   (Returns None) ["e1"] (Panics "P")))) = 1 /\
  calls is_PublishEvents
    (trace (snd (run (backend (Returns (Some errR))) (Returns (sound, None))
                   (Returns None) ["e1"] (Panics "P")))) = 0 /\
  fst (run (backend (Returns (Some errR))) (Returns (sound, None))
         (Returns None) ["e1"] (Panics "P")) = Panics "P".
Proof.
  unfold run.
  edestruct (Atomic_body_panic_rolls_back_and_repanics
               Store PanicVal Event D Tx T B
               (uow (backend (Returns (Some errR))) (Returns (sound, None))
                  (Returns None))
               ctx (body ["e1"] (Panics "P")) empty)
    as (H1 & H2 & _ & H3); [reflexivity .. |].
  split; [exact H1 |]. split; [exact H2 |].
  eapply H3. reflexivity.
Defined.

(** C4 fails as it is stated: the body panics with [P] and the [Rollback]
    of the guard panics with [Q]; it is [Q] that leaves [Atomic]. *)
Lemma rollback_panic_replaces_body_panic :
  ~ body_panic_is_reraised
      (uow (backend (Panics "Q")) (Returns (sound, None)) (Returns None))
      ctx (body ["e1"] (Panics "P")) empty.
Proof.
  intros H.
  edestruct H as (_ & _ & Hres); [reflexivity .. |].
  cbn in Hres. discriminate Hres.
Qed.



(** A run on which every call that is made returns: the body fails, so
    the atomic context, whose [CollectEvents] would panic, is never asked. *)
Lemma Atomic_rollback_iff_failure_publish_iff_success_witness :
  (calls is_Rollback
     (trace (snd (run (backend (Returns None)) (Returns (broken "P", None))
                    (Returns None) ["e1"] (Returns (Some errE))))) = 1
   <-> fails_or_panics (PanicVal := PanicVal) (Returns (Some errE))) /\
  (calls is_PublishEvents
     (trace (snd (run (backend (Returns None)) (Returns (broken "P", None))
                    (Returns None) ["e1"] (Returns (Some errE))))) = 1
   <-> @Returns PanicVal _ (Some errE) = Returns None).
Proof.
  unfold run.
  eapply (Atomic_rollback_iff_failure_publish_iff_success
            Store PanicVal Event D Tx T B);
    try reflexivity.
  - intros _. eexists; eexists; reflexivity.
  - intros H. discriminate H.
Defined.

(** C6 fails as it is stated: the body returns nil and the bus panics; the
    deferred guard then rolls back, once, a transaction whose body did not
    fail. *)
Lemma publish_panic_rolls_back_after_success :
  ~ rollback_iff_failure_publish_iff_success
      (uow (backend (Returns None)) (Returns (sound, None)) (Panics "boom"))
      ctx (body ["e1"] (Returns None)) empty.
Proof.
  intros H.
  edestruct H as ((Hone & _) & _); [reflexivity .. |].
  exact (Hone eq_refl).
Qed.



(** The context factory panics. *)
Lemma Atomic_factory_panic_skips_rollback_witness :
  fst (run (backend (Returns None)) (Panics "P") (Returns None) ["e1"]
         (Returns None)) = Panics "P" /\
  calls is_Rollback
    (trace (snd (run (backend (Returns None)) (Panics "P") (Returns None)
                   ["e1"] (Returns None)))) = 0 /\
  trace (snd (run (backend (Returns None)) (Panics "P") (Returns None)
                ["e1"] (Returns None)))
  = [CallBegin ctx; CallNewContext (Returns None)].
Proof.
  unfold run.
  eapply (Atomic_factory_panic_skips_rollback Store PanicVal Event D Tx T B);
    reflexivity.
Defined.

(** The body emits nothing and returns nil: one call with zero events. *)
Lemma Atomic_publishes_once_even_if_empty_witness :
  calls is_PublishEvents
    (trace (snd (run (backend (Returns None)) (Returns (sound, None))
                   (Returns None) [] (Returns None)))) = 1 /\
  published
    (trace (snd (run (backend (Returns None)) (Returns (sound, None))
                   (Returns None) [] (Returns None)))) = [[]].
Proof.
  unfold run.
  edestruct (Atomic_publishes_once_even_if_empty
               Store PanicVal Event D Tx T B
               (uow (backend (Returns None)) (Returns (sound, None))
                  (Returns None))
               ctx (body [] (Returns None)) empty)
    as (H1 & H2 & _); [reflexivity .. |].
  exact (conj H1 H2).
Defined.

End Examples.

(* ================================================================== *)
(** ** What [stateRollbackError] matches *)

Section Wrapping.

(** X1.  [errors.Is] on the result of [stateRollbackError err] finds
    [target] exactly when [errors.Is] finds it in [err] already, or [target]
    is [ErrRollback], or [target] is one of the two objects the function
    itself allocates (the wrapper of [fmt.Errorf], the join of
    [errors.Join]): every match of the cause survives the wrapping, and the
    only foreign marker added is [ErrRollback]. *)
Theorem stateRollbackError_Is_iff (pw pj : positive) (err target : error) :
  errors_Is (stateRollbackError_at pw pj err) (Some target) = true <->
  errors_Is (Some err) (Some target) = true \/
  error_eqb ErrRollback target = true \/
  error_eqb (fmt_Errorf_w pw "state rollback: " err) target = true \/
  error_eqb (joinError pj [fmt_Errorf_w pw "state rollback: " err;
                           ErrRollback]) target = true.
Proof.
  rewrite stateRollbackError_at_eq. cbn [errors_Is].
  change (wrapError pw ("state rollback: " ++ Error err) err)
    with (fmt_Errorf_w pw "state rollback: " err).
  set (w := fmt_Errorf_w pw "state rollback: " err).
  cbn [is_ existsb Is_method].
  change (is_ w target (comparable target))
    with ((comparable target && error_eqb w target) || false
          || is_ err target (comparable target)).
  change (is_ ErrRollback target (comparable target))
    with ((comparable target && error_eqb ErrRollback target) || false
          || false).
  rewrite !orb_false_r.
  assert (Hc : forall x : error,
             comparable x = true ->
             comparable target && error_eqb x target = error_eqb x target).
  { intros x Hx. destruct (error_eqb x target) eqn:E;
      [| apply andb_false_r].
    destruct x, target; cbn in E |- *; try discriminate; try reflexivity.
    cbn in Hx; subst. now destruct comparable1. }
  rewrite !Hc by reflexivity.
  rewrite !orb_true_iff. tauto.
Qed.

End Wrapping.

(* ================================================================== *)
(** ** Every run of [Atomic] *)

Section Guarantees.

Variables S PanicVal Event D Tx T B : Type.
Context {Heap_S : Heap S}.
Context {DB_D : DB S PanicVal D Tx}.
Context {DBContext_Tx : DBContext S PanicVal Tx}.
Context {AtomicContext_T : AtomicContext S PanicVal Event T}.
Context {MessageBus_B : MessageBus S PanicVal Event B}.

Variable uow : UnitOfWork S PanicVal D Tx T B.
Variable ctx : context_Context.
Variable do : context_Context -> T -> Eff S PanicVal (option error).
Variable s0 : S.

(** Follow [Atomic] through the outcome of each foreign call in turn. *)
Ltac step_call :=
  match goal with
  | |- context [new_object ?s] =>
      destruct (new_object s) as [? ?] eqn:?; cbn [store trace app]
  | |- context [Begin ?d ?c ?s] => split_on (Begin d c s)
  | |- context [newContext ?u ?t ?s] => split_on (newContext u t s)
  | |- context [do ?c ?t ?s] => split_on (do c t s)
  | |- context [Rollback ?t ?s] => split_on (Rollback t s)
  | |- context [CollectEvents ?t ?s] => split_on (CollectEvents t s)
  | |- context [PublishEvents ?b ?e ?s] => split_on (PublishEvents b e s)
  | _ => split_pair
  | _ => split_option
  end.

Ltac all_paths := unfold_Atomic; repeat step_call; cbn.

(** X2.  [Atomic] returns nil only on full success: [Begin] and the context
    factory succeeded, the body returned nil, [CollectEvents] returned and
    [PublishEvents] returned nil; on such a run there is no [Rollback] and
    nothing is logged. *)
Theorem Atomic_nil_only_on_full_success :
  fst (run_Atomic uow ctx do s0) = Returns None ->
  (exists (tx : Tx) (s1 : S) (atomicCtx : T) (s2 s3 : S)
          (events : list Event) (s4 s5 : S),
     Begin (db uow) ctx s0 = (Returns (tx, None), s1) /\
     newContext uow tx s1 = (Returns (atomicCtx, None), s2) /\
     do (cancelCtx ctx) atomicCtx s2 = (Returns None, s3) /\
     CollectEvents atomicCtx s3 = (Returns events, s4) /\
     PublishEvents (msgBus uow) events s4 = (Returns None, s5)) /\
  calls is_Rollback (trace (snd (run_Atomic uow ctx do s0))) = 0 /\
  calls is_LogError (trace (snd (run_Atomic uow ctx do s0))) = 0.
Proof.
  all_paths; intros H; try discriminate H.
  split; [| split; reflexivity].
  do 8 eexists. repeat split; first [reflexivity | eassumption].
Qed.

(** X3.  Every error [Atomic] returns either unwraps to [ErrRollback], or
    is the very error [PublishEvents] returned after a body that returned
    nil. *)
Theorem Atomic_error_is_tagged_or_from_bus (err : error) :
  fst (run_Atomic uow ctx do s0) = Returns (Some err) ->
  errors_Is (Some err) (Some ErrRollback) = true \/
  exists (tx : Tx) (s1 : S) (atomicCtx : T) (s2 s3 : S)
         (events : list Event) (s4 s5 : S),
    Begin (db uow) ctx s0 = (Returns (tx, None), s1) /\
    newContext uow tx s1 = (Returns (atomicCtx, None), s2) /\
    do (cancelCtx ctx) atomicCtx s2 = (Returns None, s3) /\
    CollectEvents atomicCtx s3 = (Returns events, s4) /\
    PublishEvents (msgBus uow) events s4 = (Returns (Some err), s5).
Proof.
  all_paths; intros H; try discriminate H.
  all: injection H as <-.
  all: try match goal with
           | |- is_ (joinError ?pj [fmt_Errorf_w ?pw _ ?e; _]) _ _ = true \/ _ =>
               left; exact (stateRollbackError_at_Is_ErrRollback pw pj e)
           end.
  right. do 8 eexists. repeat split; first [reflexivity | eassumption].
Qed.

(** X4.  On every run [PublishEvents] is called at most once; when it is
    called, the body had returned nil and the batch is exactly what
    [CollectEvents] returned. *)
Theorem Atomic_publishes_only_after_success :
  calls is_PublishEvents (trace (snd (run_Atomic uow ctx do s0))) = 0 \/
  exists (tx : Tx) (s1 : S) (atomicCtx : T) (s2 s3 : S)
         (events : list Event) (s4 : S),
    Begin (db uow) ctx s0 = (Returns (tx, None), s1) /\
    newContext uow tx s1 = (Returns (atomicCtx, None), s2) /\
    do (cancelCtx ctx) atomicCtx s2 = (Returns None, s3) /\
    CollectEvents atomicCtx s3 = (Returns events, s4) /\
    published (trace (snd (run_Atomic uow ctx do s0))) = [events].
Proof.
  all_paths; try (left; reflexivity).
  all: right; do 7 eexists;
    repeat split; first [reflexivity | eassumption].
Qed.

(** X5.  On every run, by a return or by a panic, the derived context is
    cancelled as often as it is created, and it is created as often as the
    body is called: at most once. *)
Theorem Atomic_always_cancels_derived_context :
  calls is_Cancel (trace (snd (run_Atomic uow ctx do s0)))
  = calls is_WithCancel (trace (snd (run_Atomic uow ctx do s0))) /\
  calls is_WithCancel (trace (snd (run_Atomic uow ctx do s0)))
  = calls is_Do (trace (snd (run_Atomic uow ctx do s0))) /\
  calls is_Do (trace (snd (run_Atomic uow ctx do s0))) <= 1.
Proof.
  all_paths; repeat split; lia.
Qed.

(** X6.  Nothing is retried: on every run [Begin] is called exactly once,
    the context factory, the body, [CollectEvents] and [PublishEvents] at
    most once each, [Rollback] at most twice, and at most one record is
    logged. *)
Theorem Atomic_makes_one_attempt :
  calls is_Begin (trace (snd (run_Atomic uow ctx do s0))) = 1 /\
  calls is_NewContext (trace (snd (run_Atomic uow ctx do s0))) <= 1 /\
  calls is_Do (trace (snd (run_Atomic uow ctx do s0))) <= 1 /\
  calls is_CollectEvents (trace (snd (run_Atomic uow ctx do s0))) <= 1 /\
  calls is_PublishEvents (trace (snd (run_Atomic uow ctx do s0))) <= 1 /\
  calls is_Rollback (trace (snd (run_Atomic uow ctx do s0))) <= 2 /\
  calls is_LogError (trace (snd (run_Atomic uow ctx do s0))) <= 1.
Proof.
  all_paths; repeat split; lia.
Qed.

End Guarantees.

(* ================================================================== *)
(** ** Panics of the collaborators *)

Section Faults.

Variables S PanicVal Event D Tx T B : Type.
Context {Heap_S : Heap S}.
Context {DB_D : DB S PanicVal D Tx}.
Context {DBContext_Tx : DBContext S PanicVal Tx}.
Context {AtomicContext_T : AtomicContext S PanicVal Event T}.
Context {MessageBus_B : MessageBus S PanicVal Event B}.

Variable uow : UnitOfWork S PanicVal D Tx T B.
Variable ctx : context_Context.
Variable do : context_Context -> T -> Eff S PanicVal (option error).
Variable s0 : S.

(** X7.  When [Begin] itself panics, the panic leaves [Atomic] as it is and
    [Begin] is the only call made: no guard is installed yet. *)
Theorem Atomic_begin_panic_propagates (P : PanicVal) (s1 : S) :
  Begin (db uow) ctx s0 = (Panics P, s1) ->
  run_Atomic uow ctx do s0 =
  (Panics P, {| store := s1; trace := [CallBegin ctx] |}).
Proof. intros HB. unfold_Atomic. now answer HB. Qed.

(** X8.  When the body returns an error [E] and the [Rollback] of line 74
    panics, the deferred guard recovers that panic and calls [Rollback] a
    second time: two calls in all, [E] is not returned, and [Atomic] ends in
    a panic (that of the first [Rollback], unless the second panics too). *)
Theorem Atomic_rollback_panic_rolls_back_twice
    (tx : Tx) (s1 : S) (atomicCtx : T) (s2 : S) (E : error) (s3 : S)
    (Q : PanicVal) (s4 : S) (ro : outcome PanicVal (option error)) (s5 : S) :
  Begin (db uow) ctx s0 = (Returns (tx, None), s1) ->
  newContext uow tx s1 = (Returns (atomicCtx, None), s2) ->
  do (cancelCtx ctx) atomicCtx s2 = (Returns (Some E), s3) ->
  Rollback tx s3 = (Panics Q, s4) ->
  Rollback tx s4 = (ro, s5) ->
  run_Atomic uow ctx do s0 =
  (Panics (guard_panic Q ro),
   {| store := s5;
      trace := [CallBegin ctx; CallNewContext tx; CallWithCancel ctx;
                CallDo (cancelCtx ctx) atomicCtx; CallRollback tx;
                CallCancel (cancelCtx ctx); CallRollback tx]
               ++ outcome_log ro |}).
Proof.
  intros HB HN HD HR HR'. unfold_Atomic.
  answer HB. answer HN. answer HD. answer HR. answer HR'.
  destruct ro as [[R|]|Q']; reflexivity.
Qed.

(** X9.  When the body panics with [P] and the [Rollback] of the guard
    panics with [Q], it is [Q] that leaves [Atomic]; [Rollback] has been
    called once and nothing is logged. *)
Theorem Atomic_guard_rollback_panic_replaces_body_panic
    (tx : Tx) (s1 : S) (atomicCtx : T) (s2 : S) (P : PanicVal) (s3 : S)
    (Q : PanicVal) (s4 : S) :
  Begin (db uow) ctx s0 = (Returns (tx, None), s1) ->
  newContext uow tx s1 = (Returns (atomicCtx, None), s2) ->
  do (cancelCtx ctx) atomicCtx s2 = (Panics P, s3) ->
  Rollback tx s3 = (Panics Q, s4) ->
  fst (run_Atomic uow ctx do s0) = Panics Q /\
  calls is_Rollback (trace (snd (run_Atomic uow ctx do s0))) = 1 /\
  calls is_LogError (trace (snd (run_Atomic uow ctx do s0))) = 0.
Proof.
  intros HB HN HD HR. unfold_Atomic.
  answer HB. answer HN. answer HD. answer HR.
  repeat split.
Qed.

(** X10.  When the body returns nil and [CollectEvents] panics with [P],
    the guard rolls the transaction back once, nothing is published, and [P]
    leaves [Atomic] (unless that [Rollback] panics itself). *)
Theorem Atomic_collect_panic_rolls_back
    (tx : Tx) (s1 : S) (atomicCtx : T) (s2 s3 : S) (P : PanicVal) (s4 : S)
    (ro : outcome PanicVal (option error)) (s5 : S) :
  Begin (db uow) ctx s0 = (Returns (tx, None), s1) ->
  newContext uow tx s1 = (Returns (atomicCtx, None), s2) ->
  do (cancelCtx ctx) atomicCtx s2 = (Returns None, s3) ->
  CollectEvents atomicCtx s3 = (Panics P, s4) ->
  Rollback tx s4 = (ro, s5) ->
  fst (run_Atomic uow ctx do s0) = Panics (guard_panic P ro) /\
  calls is_Rollback (trace (snd (run_Atomic uow ctx do s0))) = 1 /\
  calls is_PublishEvents (trace (snd (run_Atomic uow ctx do s0))) = 0.
Proof.
  intros HB HN HD HC HR. unfold_Atomic.
  answer HB. answer HN. answer HD. answer HC. answer HR.
  destruct ro as [[R|]|Q']; repeat split.
Qed.

(** X11.  When the body returns nil and [PublishEvents] panics with [P],
    the batch has been handed to the bus once and the guard then rolls the
    transaction back once; [P] leaves [Atomic] (unless that [Rollback]
    panics itself). *)
Theorem Atomic_publish_panic_rolls_back
    (tx : Tx) (s1 : S) (atomicCtx : T) (s2 s3 : S) (events : list Event)
    (s4 : S) (P : PanicVal) (s5 : S)
    (ro : outcome PanicVal (option error)) (s6 : S) :
  Begin (db uow) ctx s0 = (Returns (tx, None), s1) ->
  newContext uow tx s1 = (Returns (atomicCtx, None), s2) ->
  do (cancelCtx ctx) atomicCtx s2 = (Returns None, s3) ->
  CollectEvents atomicCtx s3 = (Returns events, s4) ->
  PublishEvents (msgBus uow) events s4 = (Panics P, s5) ->
  Rollback tx s5 = (ro, s6) ->
  fst (run_Atomic uow ctx do s0) = Panics (guard_panic P ro) /\
  published (trace (snd (run_Atomic uow ctx do s0))) = [events] /\
  calls is_Rollback (trace (snd (run_Atomic uow ctx do s0))) = 1.
Proof.
  intros HB HN HD HC HP HR. unfold_Atomic.
  answer HB. answer HN. answer HD. answer HC. answer HP. answer HR.
  destruct ro as [[R|]|Q']; repeat split.
Qed.

(** X12.  Once [Begin] has returned the handle [tx] and the factory the
    context [atomicCtx], every call of the run is addressed to the objects
    of this attempt: [Rollback] goes to [tx] only, [CollectEvents] to
    [atomicCtx] only, the body receives the child of the ambient context
    (never the ambient context itself) together with [atomicCtx], and the
    context that is cancelled is that child. *)
Theorem Atomic_calls_addressed_to_attempt
    (tx : Tx) (s1 : S) (atomicCtx : T) (s2 : S) :
  Begin (db uow) ctx s0 = (Returns (tx, None), s1) ->
  newContext uow tx s1 = (Returns (atomicCtx, None), s2) ->
  Forall (addressed_to ctx tx atomicCtx)
         (trace (snd (run_Atomic uow ctx do s0))).
Proof.
  intros HB HN. unfold_Atomic. answer HB. answer HN.
  repeat match goal with
         | |- context [new_object ?s] =>
             destruct (new_object s) as [? ?] eqn:?; cbn [store trace app]
         | |- context [do ?c ?t ?s] => split_on (do c t s)
         | |- context [Rollback ?t ?s] => split_on (Rollback t s)
         | |- context [CollectEvents ?t ?s] => split_on (CollectEvents t s)
         | |- context [PublishEvents ?b ?e ?s] =>
             split_on (PublishEvents b e s)
         | _ => split_option
         end; cbn;
    repeat (apply Forall_cons; [cbn; auto |]); apply Forall_nil.
Qed.

(** X13.  A publication failure that is logged is the error returned: when
    the trace holds the record "failed to publish events" with [G], [Atomic]
    has returned [G] and has made no [Rollback]. *)
Theorem Atomic_logged_publish_error_is_returned (G : error) :
  In (CallLogError "failed to publish events" G)
     (trace (snd (run_Atomic uow ctx do s0))) ->
  fst (run_Atomic uow ctx do s0) = Returns (Some G) /\
  calls is_Rollback (trace (snd (run_Atomic uow ctx do s0))) = 0.
Proof.
  unfold_Atomic.
  repeat match goal with
         | |- context [new_object ?s] =>
             destruct (new_object s) as [? ?] eqn:?; cbn [store trace app]
         | |- context [Begin ?d ?c ?s] => split_on (Begin d c s)
         | |- context [newContext ?u ?t ?s] => split_on (newContext u t s)
         | |- context [do ?c ?t ?s] => split_on (do c t s)
         | |- context [Rollback ?t ?s] => split_on (Rollback t s)
         | |- context [CollectEvents ?t ?s] => split_on (CollectEvents t s)
         | |- context [PublishEvents ?b ?e ?s] =>
             split_on (PublishEvents b e s)
         | _ => split_pair
         | _ => split_option
         end; cbn; intros Hin;
    repeat (destruct Hin as [Hin | Hin]; try discriminate Hin);
    try contradiction.
  injection Hin as ->. split; reflexivity.
Qed.

(** X14.  Wherever a [Rollback] stands in the trace of a run, the body has
    been called before it, exactly once, and after it the body is not called
    and nothing is published: a transaction is rolled back only after its
    body ran, and no event is handed to the bus once it is rolled back. *)
Theorem Atomic_rollback_follows_body_and_ends_publication
    (pre post : list (Call Event Tx T)) (t : Tx) :
  trace (snd (run_Atomic uow ctx do s0))
  = (pre ++ CallRollback t :: post)%list ->
  calls is_Do pre = 1 /\
  calls is_Do post = 0 /\
  calls is_PublishEvents post = 0.
Proof.
  unfold_Atomic.
  repeat match goal with
         | |- context [new_object ?s] =>
             destruct (new_object s) as [? ?] eqn:?; cbn [store trace app]
         | |- context [Begin ?d ?c ?s] => split_on (Begin d c s)
         | |- context [newContext ?u ?t ?s] => split_on (newContext u t s)
         | |- context [do ?c ?t ?s] => split_on (do c t s)
         | |- context [Rollback ?t ?s] => split_on (Rollback t s)
         | |- context [CollectEvents ?t ?s] => split_on (CollectEvents t s)
         | |- context [PublishEvents ?b ?e ?s] =>
             split_on (PublishEvents b e s)
         | _ => split_pair
         | _ => split_option
         end; cbn; intros H;
    repeat (destruct pre as [| c pre]; cbn in H;
            [ try discriminate H;
              try (injection H as <- <-; repeat split; reflexivity)
            | try discriminate H; injection H as <- H ]);
    try (destruct pre; discriminate H).
Qed.

End Faults.

(* ================================================================== *)
(** ** These theorems on the scripted environment *)

Section MoreExamples.

Import Demo.

(** Full success. *)
Lemma Atomic_nil_only_on_full_success_witness :
  calls is_Rollback
    (trace (snd (run (backend (Returns None)) (Returns (sound, None))
                   (Returns None) ["e1"; "e2"] (Returns None)))) = 0 /\
  calls is_LogError
    (trace (snd (run (backend (Returns None)) (Returns (sound, None))
                   (Returns None) ["e1"; "e2"] (Returns None)))) = 0.
Proof.
  unfold run.
  edestruct (Atomic_nil_only_on_full_success Store PanicVal Event D Tx T B
               (uow (backend (Returns None)) (Returns (sound, None))
                  (Returns None))
               ctx (body ["e1"; "e2"] (Returns None)) empty)
    as (_ & H1 & H2); [reflexivity |].
  exact (conj H1 H2).
Defined.

(** The bus fails with [errG], which does not carry the marker: the error
    returned is the one of the bus. *)
Lemma Atomic_error_is_tagged_or_from_bus_witness :
  errors_Is (Some errG) (Some ErrRollback) = true \/
  exists (tx : Tx) (s1 : Store) (atomicCtx : T) (s2 s3 : Store)
         (events : list Event) (s4 s5 : Store),
    Begin (db (uow (backend (Returns None)) (Returns (sound, None))
                 (Returns (Some errG)))) ctx empty
    = (Returns (tx, None), s1) /\
    newContext (uow (backend (Returns None)) (Returns (sound, None))
                  (Returns (Some errG))) tx s1
    = (Returns (atomicCtx, None), s2) /\
    body ["e1"] (Returns None) (cancelCtx ctx) atomicCtx s2
    = (Returns None, s3) /\
    CollectEvents atomicCtx s3 = (Returns events, s4) /\
    PublishEvents (msgBus (uow (backend (Returns None))
                             (Returns (sound, None)) (Returns (Some errG))))
      events s4
    = (Returns (Some errG), s5).
Proof.
  apply (Atomic_error_is_tagged_or_from_bus Store PanicVal Event D Tx T B
           (uow (backend (Returns None)) (Returns (sound, None))
              (Returns (Some errG)))
           ctx (body ["e1"] (Returns None)) empty errG).
  reflexivity.
Defined.

(** A backend whose [Begin] panics. *)
Lemma Atomic_begin_panic_propagates_witness :
  run (Panics "no database") (Returns (sound, None)) (Returns None) ["e1"]
    (Returns None)
  = (Panics "no database", {| store := empty; trace := [CallBegin ctx] |}).
Proof.
  unfold run.
  apply (Atomic_begin_panic_propagates Store PanicVal Event D Tx T B).
  reflexivity.
Defined.

(** A handle whose [Rollback] panics, under a body that fails. *)
Lemma Atomic_rollback_panic_rolls_back_twice_witness :
  fst (run (backend (Panics "Q")) (Returns (sound, None)) (Returns None)
         ["e1"] (Returns (Some errE))) = Panics "Q" /\
  calls is_Rollback
    (trace (snd (run (backend (Panics "Q")) (Returns (sound, None))
                   (Returns None) ["e1"] (Returns (Some errE))))) = 2.
Proof.
  unfold run.
  rewrite (Atomic_rollback_panic_rolls_back_twice
             Store PanicVal Event D Tx T B
             (uow (backend (Panics "Q")) (Returns (sound, None))
                (Returns None))
             ctx (body ["e1"] (Returns (Some errE))) empty
             (Panics "Q") empty sound empty errE
             {| buffer := ["e1"]; delivered := []; rollbacks := 0;
              next := 100 |}
             "Q"
             {| buffer := ["e1"]; delivered := []; rollbacks := 1;
              next := 100 |}
             (Panics "Q")
             {| buffer := ["e1"]; delivered := []; rollbacks := 2;
              next := 100 |});
    [split; reflexivity | reflexivity ..].
Defined.

(** A handle whose [Rollback] panics, under a body that panics. *)
Lemma Atomic_guard_rollback_panic_replaces_body_panic_witness :
  fst (run (backend (Panics "Q")) (Returns (sound, None)) (Returns None)
         ["e1"] (Panics "P")) = Panics "Q" /\
  calls is_Rollback
    (trace (snd (run (backend (Panics "Q")) (Returns (sound, None))
                   (Returns None) ["e1"] (Panics "P")))) = 1 /\
  calls is_LogError
    (trace (snd (run (backend (Panics "Q")) (Returns (sound, None))
                   (Returns None) ["e1"] (Panics "P")))) = 0.
Proof.
  unfold run.
  eapply (Atomic_guard_rollback_panic_replaces_body_panic
            Store PanicVal Event D Tx T B);
    reflexivity.
Defined.

(** An atomic context whose [CollectEvents] panics. *)
Lemma Atomic_collect_panic_rolls_back_witness :
  fst (run (backend (Returns None)) (Returns (broken "P", None))
         (Returns None) ["e1"] (Returns None)) = Panics "P" /\
  calls is_Rollback
    (trace (snd (run (backend (Returns None)) (Returns (broken "P", None))
                   (Returns None) ["e1"] (Returns None)))) = 1 /\
  calls is_PublishEvents
    (trace (snd (run (backend (Returns None)) (Returns (broken "P", None))
                   (Returns None) ["e1"] (Returns None)))) = 0.
Proof.
  unfold run.
  apply (Atomic_collect_panic_rolls_back Store PanicVal Event D Tx T B
           (uow (backend (Returns None)) (Returns (broken "P", None))
              (Returns None))
           ctx (body ["e1"] (Returns None)) empty
           (Returns None) empty (broken "P") empty
           {| buffer := ["e1"]; delivered := []; rollbacks := 0;
              next := 100 |}
           "P"
           {| buffer := ["e1"]; delivered := []; rollbacks := 0;
              next := 100 |}
           (Returns None)
           {| buffer := ["e1"]; delivered := []; rollbacks := 1;
              next := 100 |});
    reflexivity.
Defined.

(** A bus that panics. *)
Lemma Atomic_publish_panic_rolls_back_witness :
  fst (run (backend (Returns None)) (Returns (sound, None)) (Panics "boom")
         ["e1"] (Returns None)) = Panics "boom" /\
  published
    (trace (snd (run (backend (Returns None)) (Returns (sound, None))
                   (Panics "boom") ["e1"] (Returns None)))) = [["e1"]] /\
  calls is_Rollback
    (trace (snd (run (backend (Returns None)) (Returns (sound, None))
                   (Panics "boom") ["e1"] (Returns None)))) = 1.
Proof.
  unfold run.
  apply (Atomic_publish_panic_rolls_back Store PanicVal Event D Tx T B
           (uow (backend (Returns None)) (Returns (sound, None))
              (Panics "boom"))
           ctx (body ["e1"] (Returns None)) empty
           (Returns None) empty sound empty
           {| buffer := ["e1"]; delivered := []; rollbacks := 0;
              next := 100 |}
           ["e1"]
           {| buffer := []; delivered := []; rollbacks := 0;
              next := 100 |}
           "boom"
           {| buffer := []; delivered := []; rollbacks := 0;
              next := 100 |}
           (Returns None)
           {| buffer := []; delivered := []; rollbacks := 1;
              next := 100 |});
    reflexivity.
Defined.

(** The calls of a run whose body fails. *)
Lemma Atomic_calls_addressed_to_attempt_witness :
  Forall (addressed_to ctx (Returns (Some errR)) sound)
    (trace (snd (run (backend (Returns (Some errR))) (Returns (sound, None))
                   (Returns None) ["e1"] (Returns (Some errE))))).
Proof.
  unfold run.
  eapply (Atomic_calls_addressed_to_attempt Store PanicVal Event D Tx T B);
    reflexivity.
Defined.

(** The bus fails with [errG]. *)
Lemma Atomic_logged_publish_error_is_returned_witness :
  fst (run (backend (Returns None)) (Returns (sound, None))
         (Returns (Some errG)) ["e1"] (Returns None))
  = Returns (Some errG) /\
  calls is_Rollback
    (trace (snd (run (backend (Returns None)) (Returns (sound, None))
                   (Returns (Some errG)) ["e1"] (Returns None)))) = 0.
Proof.
  unfold run.
  apply (Atomic_logged_publish_error_is_returned
           Store PanicVal Event D Tx T B).
  cbn. tauto.
Defined.

(** The [Rollback] of a run whose body fails and whose rollback fails. *)
Lemma Atomic_rollback_follows_body_and_ends_publication_witness :
  calls is_Do
    [@CallBegin Event Tx T ctx; CallNewContext (Returns (Some errR));
     CallWithCancel ctx; CallDo (cancelCtx ctx) sound] = 1 /\
  calls is_Do
    [@CallLogError Event Tx T "failed to rollback transaction" errR;
     CallCancel (cancelCtx ctx)] = 0 /\
  calls is_PublishEvents
    [@CallLogError Event Tx T "failed to rollback transaction" errR;
     CallCancel (cancelCtx ctx)] = 0.
Proof.
  apply (Atomic_rollback_follows_body_and_ends_publication
           Store PanicVal Event D Tx T B
           (uow (backend (Returns (Some errR))) (Returns (sound, None))
              (Returns None))
           ctx (body ["e1"] (Returns (Some errE))) empty
           [CallBegin ctx; CallNewContext (Returns (Some errR));
            CallWithCancel ctx; CallDo (cancelCtx ctx) sound]
           [CallLogError "failed to rollback transaction" errR;
            CallCancel (cancelCtx ctx)]
           (Returns (Some errR))).
  reflexivity.
Defined.

End MoreExamples.
